(** * structurizr.view.dynamic_view

    A shallow embedding of [DynamicView] (src/structurizr/view/dynamic_view.py):
    scope validation of elements, resolution of the model relationship behind
    an interaction, and the numbering of interactions, with the properties of
    the specification proved about it.

    Python objects are compared with [is] in the source; every element
    carries its object identity ([Element.ident]) and [is_] compares these.
    Methods of the view are computations in a state-and-exception monad over
    the view: a raised exception keeps the state reached so far, as in
    Python. *)

From Stdlib Require Import String List Bool Arith Lia.
From Stdlib Require Import Decimal DecimalNat DecimalString.
Import ListNotations.
Open Scope string_scope.

(** ** Python values *)

(** [str(n)] for a non-negative [int]. *)
Definition str (n : nat) : string := NilEmpty.string_of_uint (Nat.to_uint n).

(** Truth value of an [Optional[str]]: [None] and [""] are falsy. *)
Definition truthy (s : option string) : bool :=
  match s with
  | None => false
  | Some s => negb (s =? "")
  end.

(** [a or b] where [a] is an [Optional[str]] and [b] a [str]. *)
Definition py_or (a : option string) (b : string) : string :=
  match a with
  | Some s => if truthy a then s else b
  | None => b
  end.

(** An [Optional[str]] formatted in an f-string. *)
Definition format (a : option string) : string :=
  match a with
  | Some s => s
  | None => "None"
  end.

(** [a == b] on [Optional[str]]. *)
Definition opt_eqb (a b : option string) : bool :=
  match a, b with
  | None, None => true
  | Some x, Some y => x =? y
  | _, _ => false
  end.

(** ** The model: elements and relationships (read only) *)

(** The classes of element the view tells apart with [isinstance].  The
    first four are the subclasses of [StaticStructureElement]; every other
    [Element] (deployment nodes, instances, ...) is a [DeploymentElement]. *)
Inductive ElementKind : Type :=
| Person
| SoftwareSystem
| Container
| Component
| DeploymentElement.

Definition kind_eqb (a b : ElementKind) : bool :=
  match a, b with
  | Person, Person
  | SoftwareSystem, SoftwareSystem
  | Container, Container
  | Component, Component
  | DeploymentElement, DeploymentElement => true
  | _, _ => false
  end.

Module Element.

#[warnings="-register-all"]
Inductive t : Type :=
  mk { ident : nat;              (* the identity of the object *)
       id : string;
       name : string;
       kind : ElementKind;
       parent : option t }.

End Element.

(** [isinstance(element, cls)] for one of the concrete classes. *)
Definition isinstance (element : Element.t) (cls : ElementKind) : bool :=
  kind_eqb (Element.kind element) cls.

Definition isinstance_StaticStructureElement (element : Element.t) : bool :=
  negb (isinstance element DeploymentElement).

(** [a is b] *)
Definition is_ (a b : Element.t) : bool :=
  Nat.eqb (Element.ident a) (Element.ident b).

(** [a is b] where [b] may be [None] *)
Definition is_opt (a : Element.t) (b : option Element.t) : bool :=
  match b with
  | Some b => is_ a b
  | None => false
  end.

Module Relationship.

Record t : Type :=
  mk { id : string;
       source : Element.t;
       destination : Element.t;
       description : string;
       technology : option string }.

End Relationship.

(** ** Exceptions and results *)

Inductive exn : Type :=
| ValueError (msg : string)
| AssertionError
| SequencingMisuse.

Inductive result (A : Type) : Type :=
| Ok (a : A)
| Raise (e : exn).
Arguments Ok {A} a.
Arguments Raise {A} e.

(** ** The sequence counter *)

Module SequenceNumber.

(** Modelled from the spec: the class [SequenceNumber] of
    [structurizr/view/sequence_number.py], which [DynamicView] imports.
    The state is a stack of branch frames that is never empty: [counter] is
    the counter of the active frame, [parents] the counters of the frames
    below it, the base frame last.  Labels are the decimal numerals the
    docstring of [parallel_sequence] shows. *)
Record t : Type :=
  mk { counter : nat;
       parents : list nat }.

(** [SequenceNumber()]: the base frame alone, nothing counted yet. *)
Definition init : t := mk 0 [].

(** Modelled from the spec: [next()] increments the counter of the active
    frame and returns its value as the label. *)
Definition get_next (s : t) : string * t :=
  let n := S (counter s) in
  (str n, mk n (parents s)).

(** Modelled from the spec: [startParallel] pushes a frame whose starting
    counter equals the current counter. *)
Definition start_parallel_sequence (s : t) : t :=
  mk (counter s) (counter s :: parents s).

(** Modelled from the spec: [endParallel] pops the frame.  With
    [continue_numbering] the parent continues after the number the branch
    reached, otherwise the parent's counter is left as it was.  Popping the
    base frame is a usage error. *)
Definition end_parallel_sequence (continue_numbering : bool) (s : t)
  : option t :=
  match parents s with
  | [] => None
  | p :: ps =>
      Some (if continue_numbering then mk (counter s) ps else mk p ps)
  end.

End SequenceNumber.

(** ** The view *)

(** The record a view keeps for an interaction ([RelationshipView]). *)
Module RelationshipView.

Record t : Type :=
  mk { relationship : Relationship.t;
       description : string;
       order : string;
       response : bool }.

End RelationshipView.

Module DynamicView.

Record t : Type :=
  mk { element : option Element.t;            (* the scope *)
       element_id : option string;
       element_views : list Element.t;        (* the elements added so far *)
       relationship_views : list RelationshipView.t;
       sequence_number : SequenceNumber.t }.

End DynamicView.

(** The view with [self.sequence_number] replaced. *)
Definition set_sequence_number (self : DynamicView.t)
  (s : SequenceNumber.t) : DynamicView.t :=
  DynamicView.mk (DynamicView.element self) (DynamicView.element_id self)
    (DynamicView.element_views self) (DynamicView.relationship_views self) s.

(** Computations on a view: the outcome and the view afterwards. *)
Definition M (A : Type) : Type := DynamicView.t -> result A * DynamicView.t.

Definition ret {A} (a : A) : M A := fun self => (Ok a, self).

Definition raise {A} (e : exn) : M A := fun self => (Raise e, self).

Definition bind {A B} (m : M A) (k : A -> M B) : M B :=
  fun self =>
    match m self with
    | (Ok a, self') => k a self'
    | (Raise e, self') => (Raise e, self')
    end.

Notation "x <- m ;; k" := (bind m (fun x => k))
  (at level 61, m at next level, right associativity).
Notation "m ;; k" := (bind m (fun _ => k))
  (at level 61, right associativity).

(** [try: body finally: handler].  The handler always runs; an exception of
    the handler replaces the outcome of the body. *)
Definition try_finally {A} (body : M A) (handler : M unit) : M A :=
  fun self =>
    let (r, self') := body self in
    match handler self' with
    | (Ok _, self'') => (r, self'')
    | (Raise e, self'') => (Raise e, self'')
    end.

(** [DynamicView.__init__] *)
Definition init (software_system container : option Element.t)
  : result DynamicView.t :=
  match software_system, container with
  | Some _, Some _ =>
      Raise (ValueError "You cannot specify both software_system and container")
  | _, _ =>
      let element :=
        match software_system with
        | Some s => Some s
        | None => container
        end in
      Ok (DynamicView.mk element (option_map Element.id element) [] []
            SequenceNumber.init)
  end.

(** The arguments of one call of [add]. *)
Module Call.

Record t : Type :=
  mk { source : Element.t;
       destination : Element.t;
       description : option string;
       technology : option string }.

End Call.

(** ** The methods of [DynamicView] *)

Section Methods.

(** The relationship indices of the model, in its declared order
    ([Element.get_efferent_relationships], [get_afferent_relationships]). *)
Variable get_efferent_relationships : Element.t -> list Relationship.t.
Variable get_afferent_relationships : Element.t -> list Relationship.t.

(** [View.check_parent_and_children_not_in_view], inherited from [View]: a
    check that reads the view and either passes ([None]) or raises. *)
Variable check_parent_and_children_not_in_view :
  DynamicView.t -> Element.t -> option exn.

Definition not_a_structural_element : string :=
  "Only people, software systems, containers and components can be " ++
  "added to dynamic views.".

Definition already_the_scope (element : Element.t) : string :=
  Element.name element ++ " is already the scope of this view and cannot be " ++
  "added to it.".

Definition components_not_allowed : string :=
  "Components can't be added to a dynamic view when the scope is a " ++
  "software system".

Definition only_people_and_systems : string :=
  "Only people and software systems can be added to this dynamic " ++
  "view.".

Definition call_check_parent_and_children_not_in_view (element : Element.t)
  : M unit :=
  fun self =>
    match check_parent_and_children_not_in_view self element with
    | None => (Ok tt, self)
    | Some e => (Raise e, self)
    end.

Definition check_element_can_be_added (element : Element.t) : M unit :=
  fun self =>
    if negb (isinstance_StaticStructureElement element) then
      raise (ValueError not_a_structural_element) self
    else if isinstance element Person then
      ret tt self
    else
      match DynamicView.element self with
      | Some scope =>
          if isinstance scope SoftwareSystem then
            (* System scope, so only systems and containers are allowed *)
            if is_ element scope then
              raise (ValueError (already_the_scope element)) self
            else if isinstance element Component then
              raise (ValueError components_not_allowed) self
            else
              call_check_parent_and_children_not_in_view element self
          else if isinstance scope Container then
            (* Container scope *)
            if is_ element scope || is_opt element (Element.parent scope) then
              raise (ValueError (already_the_scope element)) self
            else
              call_check_parent_and_children_not_in_view element self
          else
            (* assert self.element is None *)
            raise AssertionError self
      | None =>
          (* No scope - only systems can be added *)
          if negb (isinstance element SoftwareSystem) then
            raise (ValueError only_people_and_systems) self
          else
            ret tt self
      end.

(** The condition of the first generator of [_find_relationship]. *)
Definition forward_candidate (description : option string)
  (destination : Element.t) (technology : option string)
  (rel : Relationship.t) : bool :=
  is_ (Relationship.destination rel) destination
  && (opt_eqb (Some (Relationship.description rel)) description
      || negb (truthy description))
  && (opt_eqb (Relationship.technology rel) technology
      || match technology with None => true | Some _ => false end).

(** The condition of the second generator. *)
Definition response_candidate (destination : Element.t)
  (technology : option string) (rel : Relationship.t) : bool :=
  is_ (Relationship.source rel) destination
  && (opt_eqb (Relationship.technology rel) technology
      || match technology with None => true | Some _ => false end).

Definition _find_relationship (source : Element.t)
  (description : option string) (destination : Element.t)
  (technology : option string) : option Relationship.t * bool :=
  match find (forward_candidate description destination technology)
          (get_efferent_relationships source) with
  | Some rel => (Some rel, false)
  | None =>
      (* Look for "response" to relationship in the opposite direction but
         ignore descriptions *)
      (find (response_candidate destination technology)
         (get_afferent_relationships source),
       true)
  end.

(** Modelled from the spec: [View._add_element], which registers the
    element in the set of elements of the view (insertion order kept, an
    element already there is not added again). *)
Definition _add_element (element : Element.t) (add_relationships : bool)
  : M unit :=
  fun self =>
    if existsb (is_ element) (DynamicView.element_views self) then
      (Ok tt, self)
    else
      (Ok tt,
       DynamicView.mk (DynamicView.element self) (DynamicView.element_id self)
         (DynamicView.element_views self ++ [element])
         (DynamicView.relationship_views self)
         (DynamicView.sequence_number self)).

(** Modelled from the spec: [View._add_relationship], which records the
    interaction (relationship, description shown, order label, response
    flag) at the end of the interactions of the view and returns the
    record. *)
Definition _add_relationship (relationship : Relationship.t)
  (description order : string) (response : bool) : M RelationshipView.t :=
  fun self =>
    let view := RelationshipView.mk relationship description order response in
    (Ok view,
     DynamicView.mk (DynamicView.element self) (DynamicView.element_id self)
       (DynamicView.element_views self)
       (DynamicView.relationship_views self ++ [view])
       (DynamicView.sequence_number self)).

(** [self.sequence_number.get_next()] *)
Definition get_next : M string :=
  fun self =>
    let (label, s) :=
      SequenceNumber.get_next (DynamicView.sequence_number self) in
    (Ok label, set_sequence_number self s).

(** [self.sequence_number.start_parallel_sequence()] *)
Definition start_parallel_sequence : M unit :=
  fun self =>
    (Ok tt,
     set_sequence_number self
       (SequenceNumber.start_parallel_sequence
          (DynamicView.sequence_number self))).

(** [self.sequence_number.end_parallel_sequence(continue_numbering)] *)
Definition end_parallel_sequence (continue_numbering : bool) : M unit :=
  fun self =>
    match SequenceNumber.end_parallel_sequence continue_numbering
            (DynamicView.sequence_number self) with
    | Some s => (Ok tt, set_sequence_number self s)
    | None => (Raise SequencingMisuse, self)
    end.

Definition not_found_with_technology (source destination : Element.t)
  (technology : string) : string :=
  "A relationship between " ++ Element.name source ++ " and " ++
  Element.name destination ++ " with technology " ++
  "'" ++ technology ++ "' does not exist in model.".

Definition not_found (source destination : Element.t) : string :=
  "A relationship between " ++ Element.name source ++ " and " ++
  Element.name destination ++ " does not exist in " ++
  "model.".

Definition add (source destination : Element.t)
  (description technology : option string) : M RelationshipView.t :=
  check_element_can_be_added source ;;
  check_element_can_be_added destination ;;
  let (relationship, response) :=
    _find_relationship source description destination technology in
  match relationship with
  | None =>
      if truthy technology then
        raise (ValueError
                 (not_found_with_technology source destination
                    (format technology)))
      else
        raise (ValueError (not_found source destination))
  | Some relationship =>
      _add_element source false ;;
      _add_element destination false ;;
      order <- get_next ;;
      _add_relationship relationship
        (py_or description (Relationship.description relationship))
        order response
  end.

(** [with self.parallel_sequence(continue_numbering): body] *)
Definition parallel_sequence {A} (continue_numbering : bool) (body : M A)
  : M A :=
  try_finally
    (start_parallel_sequence ;; body)
    (end_parallel_sequence continue_numbering).

(** ** Client code: runs of [add] *)

Definition add_call (c : Call.t) : M RelationshipView.t :=
  add (Call.source c) (Call.destination c) (Call.description c)
    (Call.technology c).

(** The calls one after the other, as statements: the first exception ends
    the run and propagates. *)
Fixpoint add_all (calls : list Call.t) : M (list RelationshipView.t) :=
  match calls with
  | [] => ret []
  | c :: calls =>
      view <- add_call c ;;
      views <- add_all calls ;;
      ret (view :: views)
  end.

(** [try: m except Exception as e: ...]: the outcome is kept as a value and
    the run goes on from the state the call left. *)
Definition attempt {A} (m : M A) : M (result A) :=
  fun self =>
    let (r, self') := m self in
    (Ok r, self').

(** The calls one after the other, each one attempted: the outcome of every
    call is recorded, successful or not. *)
Fixpoint attempt_all (calls : list Call.t)
  : M (list (result RelationshipView.t)) :=
  match calls with
  | [] => ret []
  | c :: calls =>
      r <- attempt (add_call c) ;;
      rs <- attempt_all calls ;;
      ret (r :: rs)
  end.

End Methods.

(** The view after a successful [add]: the two elements registered, the
    interaction recorded, the counter moved on. *)
Definition added (source destination : Element.t)
  (view : RelationshipView.t) (self : DynamicView.t) : DynamicView.t :=
  let self1 := snd (_add_element source false self) in
  let self2 := snd (_add_element destination false self1) in
  let self3 :=
    set_sequence_number self2
      (snd (SequenceNumber.get_next (DynamicView.sequence_number self2))) in
  DynamicView.mk (DynamicView.element self3) (DynamicView.element_id self3)
    (DynamicView.element_views self3)
    (DynamicView.relationship_views self3 ++ [view])
    (DynamicView.sequence_number self3).

(** The interactions recorded by the successful calls of a run. *)
Fixpoint successes {A} (rs : list (result A)) : list A :=
  match rs with
  | [] => []
  | Ok a :: rs => a :: successes rs
  | Raise _ :: rs => successes rs
  end.

(** The order labels of interactions. *)
Definition orders (views : list RelationshipView.t) : list string :=
  map RelationshipView.order views.

(** The number an order label denotes, [int(label)]. *)
Definition int_of_label (label : string) : option nat :=
  option_map Nat.of_uint (NilEmpty.uint_of_string label).


(** [needle in haystack] *)
Fixpoint mentions (haystack needle : string) : bool :=
  prefix needle haystack
  || match haystack with
     | EmptyString => false
     | String _ rest => mentions rest needle
     end.

(** [x] is the first element of [l] that satisfies [P]. *)
Definition first_match {A} (P : A -> Prop) (l : list A) (x : A) : Prop :=
  exists before after,
    l = (before ++ x :: after)%list /\ P x /\ Forall (fun y => ~ P y) before.

(** [a is b], as a proposition. *)
Definition same_object (a b : Element.t) : Prop :=
  Element.ident a = Element.ident b.

(** ** What the specification calls a match *)

(** A forward match: the destination is the target, the description is
    unspecified or empty or that of the relationship, the technology is
    unspecified or that of the relationship. *)
Definition forward_match (description : option string)
  (destination : Element.t) (technology : option string)
  (rel : Relationship.t) : Prop :=
  same_object (Relationship.destination rel) destination
  /\ (description = None \/ description = Some ""
      \/ description = Some (Relationship.description rel))
  /\ (technology = None \/ technology = Relationship.technology rel).

(** A response match: the declared source is the target and the technology
    is unspecified or that of the relationship. *)
Definition response_match (destination : Element.t)
  (technology : option string) (rel : Relationship.t) : Prop :=
  same_object (Relationship.source rel) destination
  /\ (technology = None \/ technology = Relationship.technology rel).

(** ** A small model to run the view on *)

Module Example.

Definition system (ident : nat) (name : string) : Element.t :=
  Element.mk ident name name SoftwareSystem None.

Definition a : Element.t := system 1 "A".
Definition b : Element.t := system 2 "B".
Definition c : Element.t := system 3 "C".
Definition d : Element.t := system 4 "D".
Definition e : Element.t := system 5 "E".
Definition f : Element.t := system 6 "F".
Definition user : Element.t := Element.mk 7 "user" "User" Person None.
Definition api : Element.t := Element.mk 8 "api" "API" Container (Some a).
Definition node : Element.t :=
  Element.mk 9 "node" "Node" DeploymentElement None.

Definition uses (id : string) (source destination : Element.t)
  (description : string) (technology : option string) : Relationship.t :=
  Relationship.mk id source destination description technology.

Definition a_b : Relationship.t := uses "r1" a b "Requests data" (Some "HTTPS").
Definition a_b' : Relationship.t := uses "r2" a b "Sends events" (Some "AMQP").
Definition b_c : Relationship.t := uses "r3" b c "Uses" None.
Definition c_e : Relationship.t := uses "r4" c e "Uses" None.
Definition b_d : Relationship.t := uses "r5" b d "Uses" None.
Definition d_e : Relationship.t := uses "r6" d e "Uses" None.
Definition e_f : Relationship.t := uses "r7" e f "Uses" None.

(** The relationships of the model, in declared order. *)
Definition relationships : list Relationship.t :=
  [a_b; a_b'; b_c; c_e; b_d; d_e; e_f].

Definition get_efferent_relationships (x : Element.t) : list Relationship.t :=
  filter (fun rel => is_ (Relationship.source rel) x) relationships.

Definition get_afferent_relationships (x : Element.t) : list Relationship.t :=
  filter (fun rel => is_ (Relationship.destination rel) x) relationships.

(** A check that accepts every element. *)
Definition check_parent_and_children_not_in_view
  (self : DynamicView.t) (x : Element.t) : option exn := None.

(** A view without scope, as [DynamicView()] builds it. *)
Definition view : DynamicView.t :=
  DynamicView.mk None None [] [] SequenceNumber.init.

(** A view whose scope is the software system [a]. *)
Definition system_view : DynamicView.t :=
  DynamicView.mk (Some a) (Some "A") [] [] SequenceNumber.init.

(** A view whose scope is the container [api]. *)
Definition container_view : DynamicView.t :=
  DynamicView.mk (Some api) (Some "api") [] [] SequenceNumber.init.

Definition call (source destination : Element.t) : Call.t :=
  Call.mk source destination None None.

Definition add :=
  add get_efferent_relationships get_afferent_relationships
    check_parent_and_children_not_in_view.

Definition add_all :=
  add_all get_efferent_relationships get_afferent_relationships
    check_parent_and_children_not_in_view.

Definition attempt_all :=
  attempt_all get_efferent_relationships get_afferent_relationships
    check_parent_and_children_not_in_view.

Definition add_call :=
  add_call get_efferent_relationships get_afferent_relationships
    check_parent_and_children_not_in_view.

(** What [add(b, a, "Sends response")] records in [view], and the view
    after it. *)
Definition response_view : RelationshipView.t :=
  RelationshipView.mk a_b "Sends response" "1" true.

Definition view_after_response : DynamicView.t :=
  DynamicView.mk None None [b; a] [response_view] (SequenceNumber.mk 1 []).

(** What [add(b, c)] records inside a parallel block opened on [view], and
    the view after it, still inside the block. *)
Definition block_view : RelationshipView.t :=
  RelationshipView.mk b_c "Uses" "1" false.

Definition view_in_block : DynamicView.t :=
  DynamicView.mk None None [b; c] [block_view] (SequenceNumber.mk 1 [0]).

(** The program of the docstring of [parallel_sequence]. *)
Definition docstring_program : M (list RelationshipView.t) :=
  v1 <- add_all [call a b] ;;
  v2 <- parallel_sequence false (add_all [call b c; call c e]) ;;
  v3 <- parallel_sequence true (add_all [call b d; call d e]) ;;
  v4 <- add_all [call e f] ;;
  ret (v1 ++ v2 ++ v3 ++ v4)%list.

End Example.


(** ** Hydration *)

Section Hydrate.

(** The part of the construction that [View] does: what [View.__init__]
    keeps of the keyword arguments that [View.hydrate_arguments] reads from
    the [DynamicViewIO], as the element views and the relationship views of
    the new view. *)
Variable DynamicViewIO : Type.
Variable hydrate_arguments :
  DynamicViewIO -> list Element.t * list RelationshipView.t.

(** [DynamicView.__init__] with keyword arguments for [View.__init__]. *)
Definition init_with (kwargs : list Element.t * list RelationshipView.t)
  (software_system container : option Element.t) : result DynamicView.t :=
  match software_system, container with
  | Some _, Some _ =>
      Raise (ValueError "You cannot specify both software_system and container")
  | _, _ =>
      let element :=
        match software_system with
        | Some s => Some s
        | None => container
        end in
      Ok (DynamicView.mk element (option_map Element.id element)
            (fst kwargs) (snd kwargs) SequenceNumber.init)
  end.

(** [element if isinstance(element, cls) else None] *)
Definition if_isinstance (element : option Element.t) (cls : ElementKind)
  : option Element.t :=
  match element with
  | Some e => if isinstance e cls then Some e else None
  | None => None
  end.

(** [DynamicView.hydrate] *)
Definition hydrate (io : DynamicViewIO) (element : option Element.t)
  : result DynamicView.t :=
  let system := if_isinstance element SoftwareSystem in
  let container := if_isinstance element Container in
  init_with (hydrate_arguments io) system container.

End Hydrate.

(** The scope is one that [check_element_can_be_added] knows: none, a
    software system or a container. *)
Definition scope_is_valid (self : DynamicView.t) : Prop :=
  match DynamicView.element self with
  | None => True
  | Some scope =>
      isinstance scope SoftwareSystem = true
      \/ isinstance scope Container = true
  end.

(** What the validation has checked when it passes. *)
Definition respects_scope
  (check_parent_and_children_not_in_view :
     DynamicView.t -> Element.t -> option exn)
  (self : DynamicView.t) (x : Element.t) : Prop :=
  isinstance_StaticStructureElement x = true
  /\ (isinstance x Person = true
      \/ match DynamicView.element self with
         | None => isinstance x SoftwareSystem = true
         | Some scope =>
             is_ x scope = false
             /\ (isinstance scope SoftwareSystem = true ->
                 isinstance x Component = false)
             /\ (isinstance scope Container = true ->
                 is_opt x (Element.parent scope) = false)
             /\ check_parent_and_children_not_in_view self x = None
         end).

(** A computation that leaves the frames below the active one as they were
    and does not move the counter of the active frame back. *)
Definition keeps_frames {A} (m : M A) : Prop :=
  forall self,
    SequenceNumber.parents (DynamicView.sequence_number (snd (m self)))
    = SequenceNumber.parents (DynamicView.sequence_number self)
    /\ SequenceNumber.counter (DynamicView.sequence_number self)
       <= SequenceNumber.counter (DynamicView.sequence_number (snd (m self))).

(** A computation that leaves the scope of the view as it was. *)
Definition keeps_scope {A} (m : M A) : Prop :=
  forall self,
    DynamicView.element (snd (m self)) = DynamicView.element self
    /\ DynamicView.element_id (snd (m self)) = DynamicView.element_id self.

(** ** Client code: nested blocks *)

(** The statements of a client of the view: a call of [add], a [try] that
    passes over the exception of its body, a [with parallel_sequence] block. *)
#[warnings="-register-all"]
Inductive stmt : Type :=
| Add (c : Call.t)
| Try (body : list stmt)
| Parallel (continue_numbering : bool) (body : list stmt).

Section Scripts.

Variable get_efferent_relationships : Element.t -> list Relationship.t.
Variable get_afferent_relationships : Element.t -> list Relationship.t.
Variable check_parent_and_children_not_in_view :
  DynamicView.t -> Element.t -> option exn.

Fixpoint exec (s : stmt) : M unit :=
  let run :=
    fix run (l : list stmt) : M unit :=
      match l with
      | [] => ret tt
      | s :: l => exec s ;; run l
      end in
  match s with
  | Add c =>
      add_call get_efferent_relationships get_afferent_relationships
        check_parent_and_children_not_in_view c ;;
      ret tt
  | Try body => attempt (run body) ;; ret tt
  | Parallel continue_numbering body =>
      parallel_sequence continue_numbering (run body)
  end.

(** The statements one after the other; the first exception ends the run. *)
Fixpoint run (l : list stmt) : M unit :=
  match l with
  | [] => ret tt
  | s :: l => exec s ;; run l
  end.

End Scripts.

(** * Properties *)

(** ** Python values *)

Lemma truthy_false (s : option string) :
  truthy s = false <-> s = None \/ s = Some "".
Proof.
  destruct s as [s|]; simpl.
  - rewrite negb_false_iff, String.eqb_eq. split.
    + intros ->. now right.
    + intros [H|H]; congruence.
  - split; auto.
Qed.

Lemma opt_eqb_eq (a b : option string) : opt_eqb a b = true <-> a = b.
Proof.
  destruct a as [x|], b as [y|]; simpl; try (split; congruence).
  rewrite String.eqb_eq. split; congruence.
Qed.

Lemma is_same_object (a b : Element.t) : is_ a b = true <-> same_object a b.
Proof. apply Nat.eqb_eq. Qed.

Lemma is_refl (a : Element.t) : is_ a a = true.
Proof. apply Nat.eqb_refl. Qed.

(** The technology filter of both generators. *)
Lemma technology_filter (technology rel_technology : option string) :
  opt_eqb rel_technology technology
  || match technology with None => true | Some _ => false end = true
  <-> technology = None \/ technology = rel_technology.
Proof.
  rewrite orb_true_iff, opt_eqb_eq.
  destruct technology; intuition congruence.
Qed.

(** ** Search in declared order *)

Lemma find_first_match {A} (f : A -> bool) (l : list A) (x : A) :
  find f l = Some x <-> first_match (fun y => f y = true) l x.
Proof.
  induction l as [|y l IH]; simpl.
  - split; [discriminate|].
    intros (before & after & E & _). now destruct before.
  - destruct (f y) eqn:Fy.
    + split.
      * intros [= ->]. exists [], l. repeat split; auto.
      * intros (before & after & E & Fx & No).
        destruct before as [|z before]; simpl in E.
        -- now injection E as ->.
        -- injection E as -> _. inversion No; congruence.
    + rewrite IH. split.
      * intros (before & after & -> & Fx & No).
        exists (y :: before), after. repeat split; auto.
        constructor; [congruence | assumption].
      * intros (before & after & E & Fx & No).
        destruct before as [|z before]; simpl in E.
        -- injection E as -> _. congruence.
        -- injection E as -> ->. inversion No; subst.
           exists before, after. auto.
Qed.

Lemma find_none_iff {A} (f : A -> bool) (l : list A) :
  find f l = None <-> ~ exists x, In x l /\ f x = true.
Proof.
  split.
  - intros H (x & Hin & Fx).
    pose proof (find_none f l H x Hin). congruence.
  - intros H. destruct (find f l) as [x|] eqn:E; [|reflexivity].
    exfalso. apply H. exists x. now apply find_some in E.
Qed.

Lemma find_some_ex {A} (f : A -> bool) (l : list A) :
  (exists x, In x l /\ f x = true) -> exists x, find f l = Some x.
Proof.
  intros H. destruct (find f l) as [x|] eqn:E; [now exists x|].
  apply find_none_iff in E. contradiction.
Qed.

Lemma first_match_ext {A} (P Q : A -> Prop) (l : list A) (x : A) :
  (forall y, P y <-> Q y) -> first_match P l x -> first_match Q l x.
Proof.
  intros PQ (before & after & E & Px & No).
  exists before, after. repeat split; [assumption | now apply PQ |].
  eapply Forall_impl; [|exact No]. intros y Hy Qy. now apply Hy, PQ.
Qed.

(** ** The resolver *)

Lemma forward_candidate_spec description destination technology rel :
  forward_candidate description destination technology rel = true
  <-> forward_match description destination technology rel.
Proof.
  unfold forward_candidate, forward_match.
  rewrite !andb_true_iff, is_same_object, technology_filter.
  rewrite orb_true_iff, opt_eqb_eq, negb_true_iff, truthy_false.
  intuition congruence.
Qed.

Lemma response_candidate_spec destination technology rel :
  response_candidate destination technology rel = true
  <-> response_match destination technology rel.
Proof.
  unfold response_candidate, response_match.
  now rewrite andb_true_iff, is_same_object, technology_filter.
Qed.

Section Resolver.

Variable get_efferent_relationships : Element.t -> list Relationship.t.
Variable get_afferent_relationships : Element.t -> list Relationship.t.

Local Notation "'resolve'" :=
  (_find_relationship get_efferent_relationships get_afferent_relationships).

Lemma no_forward_match source destination description technology :
  find (forward_candidate description destination technology)
    (get_efferent_relationships source) = None
  <-> ~ exists rel,
        In rel (get_efferent_relationships source)
        /\ forward_match description destination technology rel.
Proof.
  rewrite find_none_iff. split; intros H (rel & Hin & Hm); apply H;
    exists rel; split; auto; now apply forward_candidate_spec.
Qed.

(** C1.  If some efferent relationship of the source has the given
    destination, a matching description (the one given is unspecified, empty
    or equal to the relationship's) and a matching technology (the one given
    is unspecified or equal to the relationship's), then [_find_relationship]
    returns the first such relationship in the declared order, with the
    response flag [False]. *)
Theorem find_relationship_forward source destination description technology :
  (exists rel,
      In rel (get_efferent_relationships source)
      /\ forward_match description destination technology rel) ->
  exists rel,
    resolve source description destination technology = (Some rel, false)
    /\ first_match (forward_match description destination technology)
         (get_efferent_relationships source) rel.
Proof.
  intros (rel0 & Hin & Hm).
  destruct (find_some_ex (forward_candidate description destination technology)
              (get_efferent_relationships source)) as [rel E].
  { exists rel0. split; [assumption | now apply forward_candidate_spec]. }
  exists rel. split.
  - unfold _find_relationship. now rewrite E.
  - apply find_first_match in E.
    eapply first_match_ext; [|exact E].
    intros y. apply forward_candidate_spec.
Qed.

(** C2.  [_find_relationship] returns a relationship flagged as a response
    exactly when no forward match exists and some afferent relationship of
    the source has the given destination as its declared source and a
    matching technology; the relationship returned is the first such one in
    declared order, and the description given plays no part in it. *)
Theorem find_relationship_response source destination description technology :
  ((exists rel,
       resolve source description destination technology = (Some rel, true))
   <-> (~ (exists rel,
             In rel (get_efferent_relationships source)
             /\ forward_match description destination technology rel))
       /\ (exists rel,
             In rel (get_afferent_relationships source)
             /\ response_match destination technology rel))
  /\ (forall rel,
         resolve source description destination technology = (Some rel, true) ->
         first_match (response_match destination technology)
           (get_afferent_relationships source) rel)
  /\ (forall rel description',
         resolve source description destination technology = (Some rel, true) ->
         ~ (exists rel',
               In rel' (get_efferent_relationships source)
               /\ forward_match description' destination technology rel') ->
         resolve source description' destination technology = (Some rel, true)).
Proof.
  unfold _find_relationship.
  destruct (find (forward_candidate description destination technology)
              (get_efferent_relationships source)) as [fwd|] eqn:F.
  - (* a forward match: never a response *)
    split; [split|split].
    + intros [rel E]. discriminate E.
    + intros [No _]. exfalso. apply No. exists fwd.
      apply find_some in F. split; [tauto|]. now apply forward_candidate_spec.
    + intros rel E. discriminate E.
    + intros rel d' E. discriminate E.
  - apply no_forward_match in F. split; [split|split].
    + intros [rel E]. injection E as E. split; [assumption|].
      exists rel. apply find_some in E. split; [tauto|].
      now apply response_candidate_spec.
    + intros [_ (rel & Hin & Hm)].
      destruct (find_some_ex (response_candidate destination technology)
                  (get_afferent_relationships source)) as [rel' E].
      { exists rel. split; [assumption | now apply response_candidate_spec]. }
      exists rel'. now rewrite E.
    + intros rel E. injection E as E. apply find_first_match in E.
      eapply first_match_ext; [|exact E].
      intros y. apply response_candidate_spec.
    + intros rel d' E No. injection E as E. apply no_forward_match in No.
      now rewrite No, E.
Qed.

End Resolver.

(** ** Substrings *)

Lemma prefix_append (needle after : string) :
  prefix needle (needle ++ after) = true.
Proof.
  induction needle as [|ch needle IH]; simpl.
  - now destruct after.
  - destruct (Ascii.ascii_dec ch ch); [assumption | contradiction].
Qed.

Lemma mentions_prefix (haystack needle : string) :
  prefix needle haystack = true -> mentions haystack needle = true.
Proof.
  intros H. destruct haystack; cbn [mentions]; now rewrite H.
Qed.

Lemma mentions_append (before needle after : string) :
  mentions (before ++ needle ++ after) needle = true.
Proof.
  induction before as [|ch before IH].
  - apply mentions_prefix. exact (prefix_append needle after).
  - change (mentions (String ch (before ++ needle ++ after)) needle = true).
    cbn [mentions]. rewrite IH. apply orb_true_r.
Qed.

Lemma mentions_skip (before rest needle : string) :
  mentions rest needle = true -> mentions (before ++ rest) needle = true.
Proof.
  intros H. induction before as [|ch before IH]; [exact H|].
  change (mentions (String ch (before ++ rest)) needle = true).
  cbn [mentions]. rewrite IH. apply orb_true_r.
Qed.

(** ** Decimal labels *)

Lemma int_of_label_str (n : nat) : int_of_label (str n) = Some n.
Proof.
  unfold int_of_label, str.
  rewrite NilEmpty.usu. cbn [option_map]. now rewrite Unsigned.of_to.
Qed.


Lemma str_injective (m n : nat) : str m = str n -> m = n.
Proof.
  intros E. apply (f_equal int_of_label) in E.
  rewrite !int_of_label_str in E. congruence.
Qed.

(** ** Adding an interaction *)

Section Add.

Variable get_efferent_relationships : Element.t -> list Relationship.t.
Variable get_afferent_relationships : Element.t -> list Relationship.t.
Variable check_parent_and_children_not_in_view :
  DynamicView.t -> Element.t -> option exn.

Local Notation "'check'" :=
  (check_element_can_be_added check_parent_and_children_not_in_view).
Local Notation "'resolve'" :=
  (_find_relationship get_efferent_relationships get_afferent_relationships).
Local Notation "'add_interaction'" :=
  (add get_efferent_relationships get_afferent_relationships
     check_parent_and_children_not_in_view).

(** Validation only reads the view. *)
Lemma check_element_keeps_view element self r self' :
  check element self = (r, self') -> self' = self.
Proof.
  unfold check_element_can_be_added,
    call_check_parent_and_children_not_in_view, raise, ret.
  repeat match goal with
         | |- context [if ?b then _ else _] => destruct b
         | |- context [match ?o with Some _ => _ | None => _ end] => destruct o
         end; congruence.
Qed.

Lemma add_element_keeps_counter element flag self :
  DynamicView.sequence_number (snd (_add_element element flag self))
  = DynamicView.sequence_number self
  /\ DynamicView.element (snd (_add_element element flag self))
     = DynamicView.element self.
Proof.
  unfold _add_element.
  destruct (existsb (is_ element) (DynamicView.element_views self)); auto.
Qed.

(** The three ways a call of [add] ends. *)
Lemma add_cases source destination description technology self :
  (exists e, check source self = (Raise e, self)
             /\ add_interaction source destination description technology self
                = (Raise e, self))
  \/ (exists e, check source self = (Ok tt, self)
                /\ check destination self = (Raise e, self)
                /\ add_interaction source destination description technology self
                   = (Raise e, self))
  \/ (check source self = (Ok tt, self)
      /\ check destination self = (Ok tt, self)
      /\ ((fst (resolve source description destination technology) = None
           /\ add_interaction source destination description technology self
              = (Raise (ValueError
                          (if truthy technology
                           then not_found_with_technology
                                  source destination (format technology)
                           else not_found source destination)), self))
          \/ (exists rel response,
                 resolve source description destination technology
                 = (Some rel, response)
                 /\ let view :=
                      RelationshipView.mk rel
                        (py_or description (Relationship.description rel))
                        (str (S (SequenceNumber.counter
                                   (DynamicView.sequence_number self))))
                        response in
                    add_interaction source destination description technology self
                    = (Ok view, added source destination view self)))).
Proof.
  unfold add, bind.
  destruct (check source self) as [[[]|e] s1] eqn:C1;
    pose proof (check_element_keeps_view _ _ _ _ C1) as ->.
  2:{ left. eauto. }
  destruct (check destination self) as [[[]|e] s2] eqn:C2;
    pose proof (check_element_keeps_view _ _ _ _ C2) as ->.
  2:{ right. left. eauto. }
  right. right. repeat split.
  destruct (resolve source description destination technology)
    as [[rel|] response] eqn:R.
  - right. exists rel, response. split; [reflexivity|].
    unfold added, _add_element, get_next, _add_relationship, SequenceNumber.get_next.
    destruct (existsb (is_ source) (DynamicView.element_views self));
      cbn [snd DynamicView.element_views DynamicView.sequence_number
             DynamicView.element DynamicView.element_id
             DynamicView.relationship_views];
      match goal with
      | |- context [if ?b then _ else _] => destruct b
      end; reflexivity.
  - left. split; [reflexivity|].
    destruct (truthy technology); reflexivity.
Qed.

(** C3.  A call of [add] that raises leaves the view as it was: the elements
    added, the interactions recorded and the sequence counter are those of
    before the call. *)
Theorem add_failure_keeps_view source destination description technology
  self e self' :
  add_interaction source destination description technology self
  = (Raise e, self') ->
  self' = self
  /\ DynamicView.element_views self' = DynamicView.element_views self
  /\ DynamicView.relationship_views self' = DynamicView.relationship_views self
  /\ DynamicView.sequence_number self' = DynamicView.sequence_number self.
Proof.
  intros H.
  assert (self' = self) as ->; [|auto].
  destruct (add_cases source destination description technology self)
    as [(e1 & _ & E) | [(e1 & _ & _ & E) | (_ & _ & [[_ E] | (rel & resp & _ & E)])]];
    cbv zeta in E; rewrite E in H; congruence.
Qed.

(** C7.  The scenarios of scope validation: a software system that is the
    scope is rejected; the parent system of a container that is the scope is
    rejected; without scope a container is rejected and a software system is
    accepted; a person is accepted whatever the scope. *)
Theorem scope_validation_scenarios :
  (forall self system,
      DynamicView.element self = Some system ->
      isinstance system SoftwareSystem = true ->
      check system self
      = (Raise (ValueError (already_the_scope system)), self))
  /\ (forall self container system,
         DynamicView.element self = Some container ->
         isinstance container Container = true ->
         Element.parent container = Some system ->
         isinstance system SoftwareSystem = true ->
         check system self
         = (Raise (ValueError (already_the_scope system)), self))
  /\ (forall self container,
         DynamicView.element self = None ->
         isinstance container Container = true ->
         check container self
         = (Raise (ValueError only_people_and_systems), self))
  /\ (forall self system,
         DynamicView.element self = None ->
         isinstance system SoftwareSystem = true ->
         check system self = (Ok tt, self))
  /\ (forall self person,
         isinstance person Person = true ->
         check person self = (Ok tt, self)).
Proof.
  unfold check_element_can_be_added, isinstance_StaticStructureElement,
    isinstance, raise, ret.
  repeat split.
  - intros self system -> K. rewrite K.
    destruct (Element.kind system); try discriminate K. cbn.
    now rewrite is_refl.
  - intros self container system -> K P K'. rewrite K, P.
    destruct (Element.kind container); try discriminate K.
    destruct (Element.kind system); try discriminate K'. cbn.
    now rewrite is_refl, orb_true_r.
  - intros self container -> K.
    destruct (Element.kind container); try discriminate K. reflexivity.
  - intros self system -> K.
    destruct (Element.kind system); try discriminate K. reflexivity.
  - intros self person K.
    destruct (Element.kind person); try discriminate K. reflexivity.
Qed.

Lemma no_candidate_without_description source destination t :
  (forall rel,
      In rel (get_efferent_relationships source) ->
      same_object (Relationship.destination rel) destination ->
      Relationship.technology rel <> t) ->
  (forall rel,
      In rel (get_afferent_relationships source) ->
      same_object (Relationship.source rel) destination ->
      Relationship.technology rel <> t) ->
  t <> None ->
  resolve source None destination t = (None, true).
Proof.
  intros Fwd Bwd Ht. unfold _find_relationship.
  destruct (find _ (get_efferent_relationships source)) as [rel|] eqn:F.
  - apply find_some in F. destruct F as [Hin F].
    apply forward_candidate_spec in F. destruct F as (D & _ & [T|T]).
    + contradiction.
    + exfalso. now apply (Fwd rel Hin D).
  - destruct (find _ (get_afferent_relationships source)) as [rel|] eqn:B;
      [|reflexivity].
    apply find_some in B. destruct B as [Hin B].
    apply response_candidate_spec in B. destruct B as (D & [T|T]).
    + contradiction.
    + exfalso. now apply (Bwd rel Hin D).
Qed.

(** C9, as amended.  When the source and the destination both pass the
    scope validation and no relationship between them with the non-empty
    technology [t] exists in either direction, [add(source, destination,
    technology=t)] raises the [ValueError] of a relationship that is not
    found, and its message contains [t]; without a technology filter the
    error is a [ValueError] too, with the message that names the two
    elements only. *)
Theorem add_relationship_not_found source destination self :
  check source self = (Ok tt, self) ->
  check destination self = (Ok tt, self) ->
  (forall t,
      t <> "" ->
      (forall rel,
          In rel (get_efferent_relationships source) ->
          same_object (Relationship.destination rel) destination ->
          Relationship.technology rel <> Some t) ->
      (forall rel,
          In rel (get_afferent_relationships source) ->
          same_object (Relationship.source rel) destination ->
          Relationship.technology rel <> Some t) ->
      add_interaction source destination None (Some t) self
      = (Raise (ValueError (not_found_with_technology source destination t)),
         self)
      /\ mentions (not_found_with_technology source destination t) t = true)
  /\ ((forall rel,
          In rel (get_efferent_relationships source) ->
          ~ same_object (Relationship.destination rel) destination) ->
      (forall rel,
          In rel (get_afferent_relationships source) ->
          ~ same_object (Relationship.source rel) destination) ->
      add_interaction source destination None None self
      = (Raise (ValueError (not_found source destination)), self)).
Proof.
  intros Cs Cd. split.
  - intros t Ht Fwd Bwd. split.
    + destruct (add_cases source destination None (Some t) self)
        as [(e & C & _) | [(e & _ & C & _) | (_ & _ & [[_ E] | (rel & resp & R & _)])]];
        try congruence.
      * rewrite E. cbn. apply String.eqb_neq in Ht. now rewrite Ht.
      * rewrite no_candidate_without_description in R;
          first [assumption | congruence].
    + unfold not_found_with_technology.
      do 6 apply mentions_skip. exact (mentions_append "" t _).
  - intros Fwd Bwd.
    destruct (add_cases source destination None None self)
      as [(e & C & _) | [(e & _ & C & _) | (_ & _ & [[_ E] | (rel & resp & R & _)])]];
      try congruence.
    + exact E.
    + exfalso. unfold _find_relationship in R.
      destruct (find _ (get_efferent_relationships source)) as [r|] eqn:F.
      * apply find_some in F. destruct F as [Hin F].
        apply forward_candidate_spec in F. destruct F as [D _].
        exact (Fwd r Hin D).
      * injection R as R _. apply find_some in R. destruct R as [Hin R].
        apply response_candidate_spec in R. destruct R as [D _].
        exact (Bwd rel Hin D).
Qed.

Lemma py_or_spec (a : option string) (b : string) :
  ((a = None \/ a = Some "") -> py_or a b = b)
  /\ (forall s, a = Some s -> s <> "" -> py_or a b = s).
Proof.
  split.
  - intros [-> | ->]; reflexivity.
  - intros s -> Hs. cbn. apply String.eqb_neq in Hs. now rewrite Hs.
Qed.

(** C10.  The interaction a successful [add] returns shows the description
    of the resolved relationship when the description argument is [None] or
    empty, and the description argument otherwise. *)
Theorem add_effective_description source destination description technology
  self view self' :
  add_interaction source destination description technology self
  = (Ok view, self') ->
  exists rel response,
    resolve source description destination technology = (Some rel, response)
    /\ RelationshipView.relationship view = rel
    /\ ((description = None \/ description = Some "") ->
        RelationshipView.description view = Relationship.description rel)
    /\ (forall d,
          description = Some d -> d <> "" ->
          RelationshipView.description view = d).
Proof.
  intros H.
  destruct (add_cases source destination description technology self)
    as [(e1 & _ & E) | [(e1 & _ & _ & E) | (_ & _ & [[_ E] | (rel & resp & R & E)])]];
    cbv zeta in E; rewrite E in H; try discriminate H.
  injection H as <- _. exists rel, resp.
  destruct (py_or_spec description (Relationship.description rel)) as [P1 P2].
  repeat split; cbn; auto.
Qed.

End Add.

(** ** Numbering the interactions *)

Section Sequencing.

Variable get_efferent_relationships : Element.t -> list Relationship.t.
Variable get_afferent_relationships : Element.t -> list Relationship.t.
Variable check_parent_and_children_not_in_view :
  DynamicView.t -> Element.t -> option exn.

Local Notation "'add_call_'" :=
  (add_call get_efferent_relationships get_afferent_relationships
     check_parent_and_children_not_in_view).
Local Notation "'add_all_'" :=
  (add_all get_efferent_relationships get_afferent_relationships
     check_parent_and_children_not_in_view).
Local Notation "'attempt_all_'" :=
  (attempt_all get_efferent_relationships get_afferent_relationships
     check_parent_and_children_not_in_view).

Local Notation "'counter_of' self" :=
  (SequenceNumber.counter (DynamicView.sequence_number self))
  (at level 10, self at level 9).
Local Notation "'parents_of' self" :=
  (SequenceNumber.parents (DynamicView.sequence_number self))
  (at level 10, self at level 9).

(** One call: it raises and the view is kept, or it takes the next number
    of the active frame. *)
Lemma add_call_counter c self :
  (exists e, add_call_ c self = (Raise e, self))
  \/ (exists view self',
         add_call_ c self = (Ok view, self')
         /\ RelationshipView.order view = str (S (counter_of self))
         /\ DynamicView.sequence_number self'
            = SequenceNumber.mk (S (counter_of self)) (parents_of self)).
Proof.
  unfold add_call.
  destruct (add_cases get_efferent_relationships get_afferent_relationships
              check_parent_and_children_not_in_view
              (Call.source c) (Call.destination c) (Call.description c)
              (Call.technology c) self)
    as [(e & _ & E) | [(e & _ & _ & E) | (_ & _ & [[_ E] | (rel & resp & _ & E)])]];
    cbv zeta in E; rewrite E; eauto.
  right. eexists _, _. split; [reflexivity|]. split; [reflexivity|].
  unfold added. cbn.
  destruct (add_element_keeps_counter (Call.source c) false self) as [E1 _].
  destruct (add_element_keeps_counter (Call.destination c) false
              (snd (_add_element (Call.source c) false self))) as [E2 _].
  now rewrite E2, E1.
Qed.

(** A run of attempted calls never raises; its successful calls take the
    numbers after the counter, one by one. *)
Lemma attempt_all_run calls : forall self,
  exists rs self',
    attempt_all_ calls self = (Ok rs, self')
    /\ orders (successes rs)
       = map str (seq (S (counter_of self)) (length (successes rs)))
    /\ DynamicView.sequence_number self'
       = SequenceNumber.mk (counter_of self + length (successes rs))
           (parents_of self).
Proof.
  induction calls as [|c calls IH]; intros self.
  - exists [], self. cbn. rewrite Nat.add_0_r.
    now destruct (DynamicView.sequence_number self).
  - cbn [attempt_all]. unfold bind, attempt, ret.
    destruct (add_call_counter c self) as [[e E] | (view & self1 & E & O & Sq)];
      rewrite E.
    + destruct (IH self) as (rs & self' & R & L & Sq). rewrite R.
      exists (Raise e :: rs), self'. auto.
    + destruct (IH self1) as (rs & self' & R & L & Sq'). rewrite R.
      exists (Ok view :: rs), self'. split; [reflexivity|].
      rewrite Sq in L, Sq'. unfold orders in *.
      cbn [SequenceNumber.counter SequenceNumber.parents] in L, Sq'.
      cbn [successes length map seq]. rewrite O, L, Sq'.
      split; [reflexivity|]. f_equal. lia.
Qed.

(** A run of calls that all succeed numbers them from the counter on. *)
Lemma add_all_run calls : forall self views self',
  add_all_ calls self = (Ok views, self') ->
  attempt_all_ calls self = (Ok (map Ok views), self')
  /\ length views = length calls.
Proof.
  induction calls as [|c calls IH]; intros self views self'; cbn [add_all attempt_all];
    unfold bind, attempt, ret.
  - intros [= <- <-]. auto.
  - destruct (add_call_ c self) as [[view|e] self1]; [|discriminate].
    destruct (add_all_ calls self1) as [[views'|e] self2] eqn:R; [|discriminate].
    intros [= <- <-]. destruct (IH _ _ _ R) as [-> L]. cbn. auto.
Qed.

Lemma successes_map_Ok {A} (l : list A) : successes (map Ok l) = l.
Proof. induction l; cbn; congruence. Qed.

(** The first call that raises ends a run of calls. *)
Lemma add_all_raise before bad rest e : forall self views self1,
  add_all_ before self = (Ok views, self1) ->
  add_call_ bad self1 = (Raise e, self1) ->
  add_all_ (before ++ bad :: rest) self = (Raise e, self1).
Proof.
  induction before as [|c before IH]; intros self views self1; simpl;
    unfold bind, ret.
  - intros [= _ <-] ->. reflexivity.
  - destruct (add_call_ c self) as [[view|e'] self']; [|discriminate].
    destruct (add_all_ before self') as [[views'|e'] self2] eqn:R;
      [|discriminate].
    intros [= _ <-] B. now rewrite (IH _ _ _ R B).
Qed.

(** A block around a body that leaves a frame to pop. *)
Lemma parallel_sequence_body {A} continue_numbering (body : M A)
  self r self1 s :
  body (snd (start_parallel_sequence self)) = (r, self1) ->
  SequenceNumber.end_parallel_sequence continue_numbering
    (DynamicView.sequence_number self1) = Some s ->
  parallel_sequence continue_numbering body self
  = (r, set_sequence_number self1 s).
Proof.
  intros B E.
  unfold parallel_sequence, try_finally, bind, end_parallel_sequence.
  cbn in B |- *. rewrite B. destruct r; now rewrite E.
Qed.

Lemma add_all_counter calls self views self' :
  add_all_ calls self = (Ok views, self') ->
  orders views = map str (seq (S (counter_of self)) (length calls))
  /\ DynamicView.sequence_number self'
     = SequenceNumber.mk (counter_of self + length calls) (parents_of self).
Proof.
  intros H. destruct (add_all_run _ _ _ _ H) as [A L].
  destruct (attempt_all_run calls self) as (rs & self1 & R & O & Sq).
  rewrite A in R. injection R as <- <-.
  rewrite successes_map_Ok, L in O, Sq. auto.
Qed.





(** C4.  On a view whose counter is the initial one and with no parallel
    block, the successful calls of [add] receive the labels "1", "2", "3",
    ...: the n-th successful call the decimal numeral of n. *)
Theorem add_orders_count_from_one calls self :
  DynamicView.sequence_number self = SequenceNumber.init ->
  (exists rs self',
      attempt_all_ calls self = (Ok rs, self')
      /\ orders (successes rs) = map str (seq 1 (length (successes rs))))
  /\ (forall views self',
         add_all_ calls self = (Ok views, self') ->
         orders views = map str (seq 1 (length calls))).
Proof.
  intros I. split.
  - destruct (attempt_all_run calls self) as (rs & self' & R & O & _).
    rewrite I in O. eauto.
  - intros views self' H. apply add_all_counter in H.
    rewrite I in H. tauto.
Qed.



(** C8.  When a call of [add] raises inside a parallel block, after the
    calls before it succeeded, the exception leaves the block and
    [end_parallel_sequence(continue_numbering)] has run all the same: the
    view is the one the block of the successful calls alone leaves, its
    counter restored as [continue_numbering] says. *)
Theorem parallel_sequence_exception continue_numbering before bad rest
  self views self1 e :
  add_all_ before (snd (start_parallel_sequence self)) = (Ok views, self1) ->
  fst (add_call_ bad self1) = Raise e ->
  exists s,
    SequenceNumber.end_parallel_sequence continue_numbering
      (DynamicView.sequence_number self1) = Some s
    /\ s = SequenceNumber.mk
             (if continue_numbering
              then counter_of self + length before
              else counter_of self)
             (parents_of self)
    /\ parallel_sequence continue_numbering
         (add_all_ (before ++ bad :: rest)) self
       = (Raise e, set_sequence_number self1 s)
    /\ parallel_sequence continue_numbering (add_all_ before) self
       = (Ok views, set_sequence_number self1 s).
Proof.
  intros Run Bad.
  assert (add_call_ bad self1 = (Raise e, self1)) as Bad'.
  { destruct (add_call_counter bad self1) as [[e' E] | (v & s & E & _)];
      rewrite E in Bad |- *; cbn in Bad; congruence. }
  destruct (add_all_counter _ _ _ _ Run) as [_ Sq]. cbn in Sq.
  eexists. split; [|split; [|split]].
  - unfold SequenceNumber.end_parallel_sequence. rewrite Sq. reflexivity.
  - cbn. now destruct continue_numbering.
  - eapply parallel_sequence_body.
    + eapply add_all_raise; eassumption.
    + unfold SequenceNumber.end_parallel_sequence. now rewrite Sq.
  - eapply parallel_sequence_body; [exact Run|].
    unfold SequenceNumber.end_parallel_sequence. now rewrite Sq.
Qed.

End Sequencing.

(** * The properties on the example model *)

(** The program of the docstring of [parallel_sequence] numbers its
    interactions as the docstring says. *)
Lemma docstring_program_orders :
  exists views self,
    Example.docstring_program Example.view = (Ok views, self)
    /\ orders views = ["1"; "2"; "3"; "2"; "3"; "4"].
Proof. vm_compute. eexists _, _. split; reflexivity. Qed.

(** Two relationships from [a] to [b] match: the first declared one wins. *)
Lemma find_relationship_forward_witness :
  (exists rel,
      In rel (Example.get_efferent_relationships Example.a)
      /\ forward_match None Example.b None rel)
  /\ exists rel,
      _find_relationship Example.get_efferent_relationships
        Example.get_afferent_relationships Example.a None Example.b None
      = (Some rel, false)
      /\ first_match (forward_match None Example.b None)
           (Example.get_efferent_relationships Example.a) rel.
Proof.
  assert (H : exists rel,
             In rel (Example.get_efferent_relationships Example.a)
             /\ forward_match None Example.b None rel).
  { exists Example.a_b'. split; [vm_compute; auto|].
    split; [reflexivity | split; left; reflexivity]. }
  split; [exact H|].
  exact (find_relationship_forward Example.get_efferent_relationships
           Example.get_afferent_relationships
           Example.a Example.b None None H).
Defined.

(** [b] answers [a]: no relationship runs from [b] to [a], the one from [a]
    to [b] is found as a response. *)
Lemma find_relationship_response_witness :
  _find_relationship Example.get_efferent_relationships
    Example.get_afferent_relationships Example.b (Some "Sends response")
    Example.a None
  = (Some Example.a_b, true)
  /\ first_match (response_match Example.a None)
       (Example.get_afferent_relationships Example.b) Example.a_b.
Proof.
  assert (H : _find_relationship Example.get_efferent_relationships
                Example.get_afferent_relationships Example.b
                (Some "Sends response") Example.a None
              = (Some Example.a_b, true)) by (vm_compute; reflexivity).
  split; [exact H|].
  exact (proj1 (proj2 (find_relationship_response
                         Example.get_efferent_relationships
                         Example.get_afferent_relationships
                         Example.b Example.a (Some "Sends response") None))
           Example.a_b H).
Defined.

(** No relationship joins [a] and [c]: the call raises and the view is the
    one of before. *)
Lemma add_failure_keeps_view_witness :
  Example.add Example.a Example.c None (Some "gRPC") Example.view
  = (Raise (ValueError
              "A relationship between A and C with technology 'gRPC' does not exist in model."),
     Example.view)
  /\ Example.view = Example.view
  /\ DynamicView.element_views Example.view
     = DynamicView.element_views Example.view
  /\ DynamicView.relationship_views Example.view
     = DynamicView.relationship_views Example.view
  /\ DynamicView.sequence_number Example.view
     = DynamicView.sequence_number Example.view.
Proof.
  assert (H : Example.add Example.a Example.c None (Some "gRPC") Example.view
              = (Raise (ValueError
                          "A relationship between A and C with technology 'gRPC' does not exist in model."),
                 Example.view)) by (vm_compute; reflexivity).
  split; [exact H|].
  exact (add_failure_keeps_view Example.get_efferent_relationships
           Example.get_afferent_relationships
           Example.check_parent_and_children_not_in_view
           Example.a Example.c None (Some "gRPC") Example.view _ _ H).
Defined.

(** The scope of [system_view] is rejected by it. *)
Lemma scope_validation_scenarios_witness :
  check_element_can_be_added Example.check_parent_and_children_not_in_view
    Example.a Example.system_view
  = (Raise (ValueError (already_the_scope Example.a)), Example.system_view).
Proof.
  exact (proj1 (scope_validation_scenarios
                  Example.check_parent_and_children_not_in_view)
           Example.system_view Example.a eq_refl eq_refl).
Defined.

(** Four calls, the third of which fails: the labels are "1", "2", "3". *)
Lemma add_orders_count_from_one_witness :
  DynamicView.sequence_number Example.view = SequenceNumber.init
  /\ (exists rs self',
         Example.attempt_all
           [Example.call Example.a Example.b; Example.call Example.b Example.c;
            Example.call Example.a Example.c; Example.call Example.c Example.e]
           Example.view = (Ok rs, self')
         /\ orders (successes rs) = map str (seq 1 (length (successes rs))))
  /\ (forall views self',
         Example.add_all
           [Example.call Example.a Example.b; Example.call Example.b Example.c;
            Example.call Example.a Example.c; Example.call Example.c Example.e]
           Example.view = (Ok views, self') ->
         orders views = map str (seq 1 4)).
Proof.
  split; [reflexivity|].
  exact (add_orders_count_from_one Example.get_efferent_relationships
           Example.get_afferent_relationships
           Example.check_parent_and_children_not_in_view
           [Example.call Example.a Example.b; Example.call Example.b Example.c;
            Example.call Example.a Example.c; Example.call Example.c Example.e]
           Example.view eq_refl).
Defined.

(** Inside a block that continues the numbering, [add(b, c)] succeeds and
    [add(c, a)] raises: the exception leaves the block, and the counter is
    the one the block of [add(b, c)] alone leaves. *)
Lemma parallel_sequence_exception_witness :
  Example.add_all [Example.call Example.b Example.c]
    (snd (start_parallel_sequence Example.view))
  = (Ok [Example.block_view], Example.view_in_block)
  /\ fst (Example.add_call (Example.call Example.c Example.a)
            Example.view_in_block)
     = Raise (ValueError "A relationship between C and A does not exist in model.")
  /\ exists final,
      parallel_sequence true
        (Example.add_all
           ([Example.call Example.b Example.c]
            ++ Example.call Example.c Example.a
            :: [Example.call Example.c Example.e])%list)
        Example.view
      = (Raise (ValueError "A relationship between C and A does not exist in model."),
         final)
      /\ parallel_sequence true
           (Example.add_all [Example.call Example.b Example.c]) Example.view
         = (Ok [Example.block_view], final)
      /\ DynamicView.sequence_number final = SequenceNumber.mk 1 [].
Proof.
  assert (H1 : Example.add_all [Example.call Example.b Example.c]
                 (snd (start_parallel_sequence Example.view))
               = (Ok [Example.block_view], Example.view_in_block))
    by (vm_compute; reflexivity).
  assert (H2 : fst (Example.add_call (Example.call Example.c Example.a)
                      Example.view_in_block)
               = Raise (ValueError
                          "A relationship between C and A does not exist in model."))
    by (vm_compute; reflexivity).
  split; [exact H1|]. split; [exact H2|].
  destruct (parallel_sequence_exception Example.get_efferent_relationships
              Example.get_afferent_relationships
              Example.check_parent_and_children_not_in_view
              true [Example.call Example.b Example.c]
              (Example.call Example.c Example.a)
              [Example.call Example.c Example.e]
              Example.view _ _ _ H1 H2) as (s & _ & Es & P1 & P2).
  exists (set_sequence_number Example.view_in_block s).
  split; [exact P1|]. split; [exact P2|].
  rewrite Es. reflexivity.
Defined.

(** [a] and [c] are software systems that no relationship joins. *)
Lemma add_relationship_not_found_witness :
  check_element_can_be_added Example.check_parent_and_children_not_in_view
    Example.a Example.view = (Ok tt, Example.view)
  /\ check_element_can_be_added Example.check_parent_and_children_not_in_view
       Example.c Example.view = (Ok tt, Example.view)
  /\ Example.add Example.a Example.c None (Some "gRPC") Example.view
     = (Raise (ValueError
                 (not_found_with_technology Example.a Example.c "gRPC")),
        Example.view)
  /\ mentions (not_found_with_technology Example.a Example.c "gRPC") "gRPC"
     = true
  /\ Example.add Example.a Example.c None None Example.view
     = (Raise (ValueError (not_found Example.a Example.c)), Example.view).
Proof.
  assert (H1 : check_element_can_be_added
                 Example.check_parent_and_children_not_in_view
                 Example.a Example.view = (Ok tt, Example.view))
    by reflexivity.
  assert (H2 : check_element_can_be_added
                 Example.check_parent_and_children_not_in_view
                 Example.c Example.view = (Ok tt, Example.view))
    by reflexivity.
  split; [exact H1|]. split; [exact H2|].
  destruct (add_relationship_not_found Example.get_efferent_relationships
              Example.get_afferent_relationships
              Example.check_parent_and_children_not_in_view
              Example.a Example.c Example.view H1 H2) as [With Without].
  destruct (With "gRPC") as [E Mn].
  - discriminate.
  - intros rel Hin D. vm_compute in Hin.
    destruct Hin as [<-|[<-|[]]]; discriminate D.
  - intros rel Hin. vm_compute in Hin. destruct Hin.
  - split; [exact E|]. split; [exact Mn|].
    apply Without.
    + intros rel Hin D. vm_compute in Hin.
      destruct Hin as [<-|[<-|[]]]; discriminate D.
    + intros rel Hin. vm_compute in Hin. destruct Hin.
Defined.

(** The claim without the scope validation fails: [api] is a container,
    which a view without scope refuses before any relationship is looked
    for, so that the error is not the one of a relationship that is not
    found and its message does not contain the technology. *)
Lemma add_relationship_not_found_counterexample :
  "gRPC" <> ""
  /\ (forall rel,
        In rel (Example.get_efferent_relationships Example.api) ->
        same_object (Relationship.destination rel) Example.c ->
        Relationship.technology rel <> Some "gRPC")
  /\ (forall rel,
        In rel (Example.get_afferent_relationships Example.api) ->
        same_object (Relationship.source rel) Example.c ->
        Relationship.technology rel <> Some "gRPC")
  /\ Example.add Example.api Example.c None (Some "gRPC") Example.view
     = (Raise (ValueError only_people_and_systems), Example.view)
  /\ mentions only_people_and_systems "gRPC" = false
  /\ ~ (exists msg self',
          Example.add Example.api Example.c None (Some "gRPC") Example.view
          = (Raise (ValueError msg), self')
          /\ mentions msg "gRPC" = true).
Proof.
  assert (H : Example.add Example.api Example.c None (Some "gRPC") Example.view
              = (Raise (ValueError only_people_and_systems), Example.view))
    by (vm_compute; reflexivity).
  assert (Mn : mentions only_people_and_systems "gRPC" = false)
    by (vm_compute; reflexivity).
  split; [discriminate|].
  split; [intros rel Hin; vm_compute in Hin; destruct Hin|].
  split; [intros rel Hin; vm_compute in Hin; destruct Hin|].
  split; [exact H|]. split; [exact Mn|].
  intros (msg & self' & E & Mt). rewrite H in E. injection E as <- _.
  rewrite Mn in Mt. discriminate Mt.
Qed.

(** [add(b, a, "Sends response")] shows the description given. *)
Lemma add_effective_description_witness :
  Example.add Example.b Example.a (Some "Sends response") None Example.view
  = (Ok Example.response_view, Example.view_after_response)
  /\ RelationshipView.description Example.response_view = "Sends response".
Proof.
  assert (H : Example.add Example.b Example.a (Some "Sends response") None
                Example.view
              = (Ok Example.response_view, Example.view_after_response))
    by (vm_compute; reflexivity).
  split; [exact H|].
  destruct (add_effective_description Example.get_efferent_relationships
              Example.get_afferent_relationships
              Example.check_parent_and_children_not_in_view
              Example.b Example.a (Some "Sends response") None
              Example.view _ _ H) as (rel & resp & _ & _ & _ & D).
  apply D; [reflexivity | discriminate].
Defined.



(** * Further properties of the resolver *)

Section ResolverOutcomes.

Variable get_efferent_relationships : Element.t -> list Relationship.t.
Variable get_afferent_relationships : Element.t -> list Relationship.t.

Local Notation "'resolve'" :=
  (_find_relationship get_efferent_relationships get_afferent_relationships).

Lemma no_response_match source destination technology :
  find (response_candidate destination technology)
    (get_afferent_relationships source) = None
  <-> ~ exists rel,
        In rel (get_afferent_relationships source)
        /\ response_match destination technology rel.
Proof.
  rewrite find_none_iff. split; intros H (rel & Hin & Hm); apply H;
    exists rel; split; auto; now apply response_candidate_spec.
Qed.

(** X1.  The three outcomes of [_find_relationship]: a relationship with
    the flag [False] is returned exactly when it is the first forward match;
    the flag is [True] exactly when there is no forward match, also when
    nothing is found; and nothing is found exactly when there is neither a
    forward nor a response match. *)
Theorem find_relationship_outcomes source destination description technology :
  (forall rel,
      resolve source description destination technology = (Some rel, false)
      <-> first_match (forward_match description destination technology)
            (get_efferent_relationships source) rel)
  /\ (snd (resolve source description destination technology) = true
      <-> ~ exists rel,
            In rel (get_efferent_relationships source)
            /\ forward_match description destination technology rel)
  /\ (fst (resolve source description destination technology) = None
      <-> (~ exists rel,
             In rel (get_efferent_relationships source)
             /\ forward_match description destination technology rel)
          /\ ~ exists rel,
               In rel (get_afferent_relationships source)
               /\ response_match destination technology rel).
Proof.
  rewrite <- no_forward_match, <- no_response_match.
  unfold _find_relationship.
  destruct (find (forward_candidate description destination technology)
              (get_efferent_relationships source)) as [fwd|] eqn:F;
    cbn [fst snd].
  - split; [|split].
    + intros rel. split.
      * intros [= <-]. apply find_first_match in F.
        eapply first_match_ext; [|exact F].
        intros y. apply forward_candidate_spec.
      * intros H.
        assert (find (forward_candidate description destination technology)
                  (get_efferent_relationships source) = Some rel) as F'.
        { apply find_first_match. eapply first_match_ext; [|exact H].
          intros y. symmetry. apply forward_candidate_spec. }
        congruence.
    + split; discriminate.
    + split; [discriminate | intros [[=] _]].
  - split; [|split].
    + intros rel. split; [discriminate|].
      intros H.
      assert (find (forward_candidate description destination technology)
                (get_efferent_relationships source) = Some rel) as F'.
      { apply find_first_match. eapply first_match_ext; [|exact H].
        intros y. symmetry. apply forward_candidate_spec. }
      congruence.
    + split; reflexivity.
    + split; [intros ->; auto | tauto].
Qed.

Lemma forward_match_relaxed description destination technology rel :
  forward_match description destination technology rel ->
  forward_match None destination technology rel
  /\ forward_match description destination None rel.
Proof. unfold forward_match. intuition. Qed.

Lemma response_match_relaxed destination technology rel :
  response_match destination technology rel ->
  response_match destination None rel.
Proof. unfold response_match. intuition. Qed.

(** What a search finds when its condition is relaxed. *)
Lemma find_relaxed {A} (f g : A -> bool) (l : list A) (x : A) :
  (forall y, f y = true -> g y = true) ->
  find f l = Some x -> exists x', find g l = Some x'.
Proof.
  intros FG F. apply find_some_ex. exists x.
  apply find_some in F. destruct F. auto.
Qed.

(** X2.  The filters only narrow the search: when [_find_relationship]
    finds a relationship, it also finds one without the description, and
    one without the technology; and when what it found was a forward match,
    what it finds without the filter is a forward match too. *)
Theorem find_relationship_filters_narrow source destination description
  technology rel response :
  _find_relationship get_efferent_relationships get_afferent_relationships
    source description destination technology
  = (Some rel, response) ->
  (exists rel' response',
      _find_relationship get_efferent_relationships get_afferent_relationships
        source None destination technology
      = (Some rel', response')
      /\ (response = false -> response' = false))
  /\ (exists rel' response',
         _find_relationship get_efferent_relationships
           get_afferent_relationships source description destination None
         = (Some rel', response')
         /\ (response = false -> response' = false)).
Proof.
  unfold _find_relationship.
  destruct (find (forward_candidate description destination technology)
              (get_efferent_relationships source)) as [fwd|] eqn:F.
  - intros [= <- <-]. split.
    + destruct (find_relaxed _ (forward_candidate None destination technology)
                  _ _ (fun y H =>
                         proj2 (forward_candidate_spec _ _ _ y)
                           (proj1 (forward_match_relaxed _ _ _ y
                                     (proj1 (forward_candidate_spec _ _ _ y) H))))
                  F) as [rel' ->].
      eauto.
    + destruct (find_relaxed _ (forward_candidate description destination None)
                  _ _ (fun y H =>
                         proj2 (forward_candidate_spec _ _ _ y)
                           (proj2 (forward_match_relaxed _ _ _ y
                                     (proj1 (forward_candidate_spec _ _ _ y) H))))
                  F) as [rel' ->].
      eauto.
  - intros [= R <-]. split.
    + destruct (find (forward_candidate None destination technology)
                  (get_efferent_relationships source)) as [fwd|].
      * exists fwd, false. split; [reflexivity | discriminate].
      * exists rel, true. split; [now rewrite R | discriminate].
    + destruct (find (forward_candidate description destination None)
                  (get_efferent_relationships source)) as [fwd|].
      * exists fwd, false. split; [reflexivity | discriminate].
      * destruct (find_relaxed _ (response_candidate destination None)
                    _ _ (fun y H =>
                           proj2 (response_candidate_spec _ _ y)
                             (response_match_relaxed _ _ y
                                (proj1 (response_candidate_spec _ _ y) H)))
                    R) as [rel' ->].
        exists rel', true. split; [reflexivity | discriminate].
Qed.

(** X3.  An interaction can be answered.  When the relationships that run
    from [source] to [destination] are also listed among the afferent
    relationships of [destination], with [source] as their declared source,
    and [_find_relationship] resolves the call from [source] to
    [destination] forward, then it resolves the call from [destination]
    back to [source] with the same technology, whatever the description. *)
Theorem reply_is_resolved source destination description technology rel
  description' :
  (forall r,
      In r (get_efferent_relationships source) ->
      same_object (Relationship.destination r) destination ->
      In r (get_afferent_relationships destination)
      /\ same_object (Relationship.source r) source) ->
  resolve source description destination technology = (Some rel, false) ->
  exists rel' response,
    resolve destination description' source technology
    = (Some rel', response).
Proof.
  intros Model R.
  assert (In rel (get_efferent_relationships source)
          /\ forward_match description destination technology rel)
    as [Hin (D & _ & T)].
  { unfold _find_relationship in R.
    destruct (find (forward_candidate description destination technology)
                (get_efferent_relationships source)) as [fwd|] eqn:F;
      [|discriminate].
    injection R as <-. apply find_some in F. destruct F as [Hin F].
    split; [assumption | now apply forward_candidate_spec]. }
  destruct (Model rel Hin D) as [Hin' S'].
  unfold _find_relationship.
  destruct (find (forward_candidate description' source technology)
              (get_efferent_relationships destination)) as [fwd|]; [eauto|].
  destruct (find_some_ex (response_candidate source technology)
              (get_afferent_relationships destination)) as [rel' ->]; [|eauto].
  exists rel. split; [assumption|].
  apply response_candidate_spec. split; assumption.
Qed.

End ResolverOutcomes.

(** * Further properties of [add] and of the scope validation *)

Section AddOutcomes.

Variable get_efferent_relationships : Element.t -> list Relationship.t.
Variable get_afferent_relationships : Element.t -> list Relationship.t.
Variable check_parent_and_children_not_in_view :
  DynamicView.t -> Element.t -> option exn.

Local Notation "'check'" :=
  (check_element_can_be_added check_parent_and_children_not_in_view).
Local Notation "'resolve'" :=
  (_find_relationship get_efferent_relationships get_afferent_relationships).
Local Notation "'add_interaction'" :=
  (add get_efferent_relationships get_afferent_relationships
     check_parent_and_children_not_in_view).

(** X4.  The order of the errors of [add]: an error of the validation of
    the source is the error of the call, whatever the destination and the
    relationships are; an error of the validation of the destination is the
    error of the call when the source passes.  The view is kept in both
    cases. *)
Theorem add_error_precedence source destination description technology
  self e :
  (fst (check source self) = Raise e ->
   add_interaction source destination description technology self
   = (Raise e, self))
  /\ (fst (check source self) = Ok tt ->
      fst (check destination self) = Raise e ->
      add_interaction source destination description technology self
      = (Raise e, self)).
Proof.
  destruct (add_cases get_efferent_relationships get_afferent_relationships
              check_parent_and_children_not_in_view
              source destination description technology self)
    as [(e1 & C & E) | [(e1 & C1 & C2 & E)
                       | (C1 & C2 & _)]];
    split; intros H; try intros H'; rewrite ?C, ?C1, ?C2 in *;
    cbn [fst] in *; congruence.
Qed.

Lemma check_passes_respects_scope x self self' :
  check x self = (Ok tt, self') ->
  respects_scope check_parent_and_children_not_in_view self x.
Proof.
  unfold check_element_can_be_added, respects_scope,
    call_check_parent_and_children_not_in_view, raise, ret,
    isinstance_StaticStructureElement, isinstance.
  destruct (Element.kind x) eqn:K; cbn; try discriminate; auto;
    (destruct (DynamicView.element self) as [scope|]; [|try discriminate; auto]);
    destruct (Element.kind scope); cbn; try discriminate;
    destruct (is_ x scope); cbn; try discriminate;
    try (destruct (is_opt x (Element.parent scope)); cbn; try discriminate);
    destruct (check_parent_and_children_not_in_view self x);
    try discriminate; intros _; split; auto; right;
    repeat split; auto; discriminate.
Qed.

(** X5.  Whatever [add] accepts respects the scope of the view: when the
    call succeeds, the source and the destination are both people, software
    systems, containers or components, and each one is a person, or, without
    scope, a software system, or, with a scope, an element that is not the
    scope, not a component when the scope is a software system, not the
    parent of the scope when the scope is a container, and that passes
    [check_parent_and_children_not_in_view]. *)
Theorem add_respects_scope source destination description technology
  self view self' :
  add_interaction source destination description technology self
  = (Ok view, self') ->
  respects_scope check_parent_and_children_not_in_view self source
  /\ respects_scope check_parent_and_children_not_in_view self destination.
Proof.
  intros H.
  destruct (add_cases get_efferent_relationships get_afferent_relationships
              check_parent_and_children_not_in_view
              source destination description technology self)
    as [(e1 & _ & E) | [(e1 & _ & _ & E) | (C1 & C2 & [[_ E] | _])]];
    try (rewrite E in H; discriminate H).
  split; eapply check_passes_respects_scope; eassumption.
Qed.

(** X6.  The empty technology is a filter and not a missing one: with
    [technology=""] only a relationship whose technology is the empty string
    is found, yet when none is found the message of the error is the one
    without technology. *)
Theorem add_empty_technology source destination description self :
  (forall rel response,
      resolve source description destination (Some "") = (Some rel, response) ->
      Relationship.technology rel = Some "")
  /\ (fst (check source self) = Ok tt ->
      fst (check destination self) = Ok tt ->
      fst (resolve source description destination (Some "")) = None ->
      add_interaction source destination description (Some "") self
      = (Raise (ValueError (not_found source destination)), self)).
Proof.
  split.
  - intros rel response. unfold _find_relationship.
    destruct (find (forward_candidate description destination (Some ""))
                (get_efferent_relationships source)) as [fwd|] eqn:F.
    + intros [= <- _]. apply find_some in F. destruct F as [_ F].
      apply forward_candidate_spec in F. destruct F as (_ & _ & [T|T]);
        congruence.
    + intros [= R _]. apply find_some in R. destruct R as [_ R].
      apply response_candidate_spec in R. destruct R as (_ & [T|T]);
        congruence.
  - intros C1 C2 R.
    destruct (add_cases get_efferent_relationships get_afferent_relationships
                check_parent_and_children_not_in_view
                source destination description (Some "") self)
      as [(e1 & C & _) | [(e1 & _ & C & _)
                         | (_ & _ & [[_ E] | (rel & resp & R' & _)])]].
    + rewrite C in C1. discriminate C1.
    + rewrite C in C2. discriminate C2.
    + exact E.
    + rewrite R' in R. discriminate R.
Qed.

(** X7.  On a view whose scope is none, a software system or a container,
    the assertion of [check_element_can_be_added] holds: the validation
    accepts the element, or raises a [ValueError], or raises what
    [check_parent_and_children_not_in_view] raised. *)
Theorem check_assertion_holds x self :
  scope_is_valid self ->
  check x self = (Ok tt, self)
  \/ (exists msg, check x self = (Raise (ValueError msg), self))
  \/ (exists e,
         check_parent_and_children_not_in_view self x = Some e
         /\ check x self = (Raise e, self)).
Proof.
  unfold scope_is_valid, check_element_can_be_added,
    call_check_parent_and_children_not_in_view, raise, ret.
  destruct (negb (isinstance_StaticStructureElement x)); [eauto|].
  destruct (isinstance x Person); [eauto|].
  destruct (DynamicView.element self) as [scope|].
  - intros [K|K]; rewrite K.
    + destruct (is_ x scope); [eauto|].
      destruct (isinstance x Component); [eauto|].
      destruct (check_parent_and_children_not_in_view self x); eauto.
    + destruct (isinstance scope SoftwareSystem).
      * destruct (is_ x scope); [eauto|].
        destruct (isinstance x Component); [eauto|].
        destruct (check_parent_and_children_not_in_view self x); eauto.
      * destruct (is_ x scope || is_opt x (Element.parent scope)); [eauto|].
        destruct (check_parent_and_children_not_in_view self x); eauto.
  - intros _. destruct (negb (isinstance x SoftwareSystem)); eauto.
Qed.

Lemma find_ext {A} (f g : A -> bool) (l : list A) :
  (forall x, f x = g x) -> find f l = find g l.
Proof.
  intros FG. induction l as [|x l IH]; cbn; [reflexivity|].
  now rewrite FG, IH.
Qed.

(** X11.  An empty description is no description: [add] with
    [description=""] does what [add] without description does, in what it
    finds, in what it records and in how it fails. *)
Theorem add_empty_description source destination technology self :
  _find_relationship get_efferent_relationships get_afferent_relationships
    source (Some "") destination technology
  = _find_relationship get_efferent_relationships get_afferent_relationships
      source None destination technology
  /\ add get_efferent_relationships get_afferent_relationships
       check_parent_and_children_not_in_view
       source destination (Some "") technology self
     = add get_efferent_relationships get_afferent_relationships
         check_parent_and_children_not_in_view
         source destination None technology self.
Proof.
  assert (resolve source (Some "") destination technology
          = resolve source None destination technology) as R.
  { unfold _find_relationship.
    rewrite (find_ext (forward_candidate (Some "") destination technology)
               (forward_candidate None destination technology)); [reflexivity|].
    intros rel. unfold forward_candidate. cbn.
    now rewrite !orb_true_r. }
  split; [exact R|].
  unfold add, bind. rewrite R. reflexivity.
Qed.

End AddOutcomes.

(** * Hydration *)

Section HydrateProperties.

Variable DynamicViewIO : Type.
Variable hydrate_arguments :
  DynamicViewIO -> list Element.t * list RelationshipView.t.

(** X8.  [hydrate] never raises the error of the two scopes: whatever the
    element is, it builds a view, whose scope is the element when that is a
    software system or a container and no scope otherwise; the view has the
    identifier of its scope and a counter that has not counted yet. *)
Theorem hydrate_scope io element :
  exists view,
    hydrate DynamicViewIO hydrate_arguments io element = Ok view
    /\ scope_is_valid view
    /\ DynamicView.element view
       = match element with
         | Some e =>
             if isinstance e SoftwareSystem || isinstance e Container
             then Some e else None
         | None => None
         end
    /\ DynamicView.element_id view
       = option_map Element.id (DynamicView.element view)
    /\ DynamicView.sequence_number view = SequenceNumber.init.
Proof.
  unfold hydrate, init_with, if_isinstance, scope_is_valid, isinstance.
  destruct element as [e|]; [|eexists; repeat split].
  destruct (Element.kind e) eqn:K; cbn; eexists; repeat split; cbn;
    rewrite ?K; auto.
Qed.

End HydrateProperties.

(** * Nested parallel blocks *)

Section ScriptProperties.

Variable get_efferent_relationships : Element.t -> list Relationship.t.
Variable get_afferent_relationships : Element.t -> list Relationship.t.
Variable check_parent_and_children_not_in_view :
  DynamicView.t -> Element.t -> option exn.

Local Notation "'exec_'" :=
  (exec get_efferent_relationships get_afferent_relationships
     check_parent_and_children_not_in_view).
Local Notation "'run_'" :=
  (run get_efferent_relationships get_afferent_relationships
     check_parent_and_children_not_in_view).
Local Notation "'counter_of' self" :=
  (SequenceNumber.counter (DynamicView.sequence_number self))
  (at level 10, self at level 9).
Local Notation "'parents_of' self" :=
  (SequenceNumber.parents (DynamicView.sequence_number self))
  (at level 10, self at level 9).

Lemma exec_Try body : exec_ (Try body) = (attempt (run_ body) ;; ret tt).
Proof. reflexivity. Qed.

Lemma exec_Parallel continue_numbering body :
  exec_ (Parallel continue_numbering body)
  = parallel_sequence continue_numbering (run_ body).
Proof. reflexivity. Qed.

Lemma keeps_frames_ret {A} (a : A) : keeps_frames (ret a).
Proof. intros self. cbn. auto. Qed.

Lemma keeps_frames_bind {A B} (m : M A) (k : A -> M B) :
  keeps_frames m -> (forall a, keeps_frames (k a)) -> keeps_frames (bind m k).
Proof.
  intros Hm Hk self. unfold bind. specialize (Hm self).
  destruct (m self) as [[a|e] self1]; cbn [snd] in Hm |- *; [|exact Hm].
  specialize (Hk a self1). destruct Hk as [P C], Hm as [P' C'].
  split; [congruence | lia].
Qed.

Lemma keeps_frames_attempt {A} (m : M A) :
  keeps_frames m -> keeps_frames (attempt m).
Proof.
  intros Hm self. unfold attempt. specialize (Hm self).
  now destruct (m self).
Qed.

Lemma keeps_frames_add_call c :
  keeps_frames (add_call get_efferent_relationships
                  get_afferent_relationships
                  check_parent_and_children_not_in_view c).
Proof.
  intros self.
  destruct (add_call_counter get_efferent_relationships
              get_afferent_relationships
              check_parent_and_children_not_in_view c self)
    as [[e E] | (view & self' & E & _ & Sq)]; rewrite E; cbn [snd]; [auto|].
  rewrite Sq. cbn. auto.
Qed.

(** A block around a body that keeps the frames: the exit pops the frame of
    the block, the outcome is the one of the body. *)
Lemma parallel_sequence_keeps_frames {A} continue_numbering (body : M A)
  self :
  keeps_frames body ->
  let inside := body (snd (start_parallel_sequence self)) in
  parallel_sequence continue_numbering body self
  = (fst inside,
     set_sequence_number (snd inside)
       (if continue_numbering
        then SequenceNumber.mk (counter_of (snd inside)) (parents_of self)
        else DynamicView.sequence_number self))
  /\ counter_of self <= counter_of (snd inside).
Proof.
  intros Hb inside. destruct (Hb (snd (start_parallel_sequence self))) as [P C].
  fold inside in P, C. cbn in P, C. split; [|exact C].
  destruct inside as [r self1] eqn:I. cbn [fst snd] in *.
  apply parallel_sequence_body; [exact I|].
  unfold SequenceNumber.end_parallel_sequence. rewrite P.
  destruct continue_numbering; [reflexivity|].
  now destruct (DynamicView.sequence_number self).
Qed.

Lemma keeps_frames_parallel_sequence {A} continue_numbering (body : M A) :
  keeps_frames body -> keeps_frames (parallel_sequence continue_numbering body).
Proof.
  intros Hb self.
  destruct (parallel_sequence_keeps_frames continue_numbering body self Hb)
    as [-> C].
  cbv zeta in C. cbn [snd]. destruct continue_numbering; cbn; auto.
Qed.

Lemma keeps_frames_run l :
  Forall (fun s => keeps_frames (exec_ s)) l -> keeps_frames (run_ l).
Proof.
  induction 1 as [|s l Hs _ IH]; cbn [run].
  - apply keeps_frames_ret.
  - apply keeps_frames_bind; auto.
Qed.

Lemma keeps_frames_exec : forall s, keeps_frames (exec_ s).
Proof.
  fix IH 1. intros [c|body|continue_numbering body].
  - cbn [exec]. apply keeps_frames_bind;
      [apply keeps_frames_add_call | intros; apply keeps_frames_ret].
  - rewrite exec_Try. apply keeps_frames_bind;
      [|intros; apply keeps_frames_ret].
    apply keeps_frames_attempt, keeps_frames_run.
    induction body as [|s body IHb]; constructor; [apply IH | exact IHb].
  - rewrite exec_Parallel.
    apply keeps_frames_parallel_sequence, keeps_frames_run.
    induction body as [|s body IHb]; constructor; [apply IH | exact IHb].
Qed.

(** X9.  Blocks are balanced at every depth.  Whatever statements a client
    runs (calls of [add], [try] blocks, parallel blocks nested in one
    another), whether they end normally or with an exception, the frames
    below the active one are those of before, and the counter of the active
    frame has not moved back. *)
Theorem run_keeps_frames l self :
  let self' :=
    snd (run get_efferent_relationships get_afferent_relationships
           check_parent_and_children_not_in_view l self) in
  SequenceNumber.parents (DynamicView.sequence_number self')
  = SequenceNumber.parents (DynamicView.sequence_number self)
  /\ SequenceNumber.counter (DynamicView.sequence_number self)
     <= SequenceNumber.counter (DynamicView.sequence_number self').
Proof.
  apply keeps_frames_run. apply Forall_forall. intros s _.
  apply keeps_frames_exec.
Qed.


Lemma keeps_scope_ret {A} (a : A) : keeps_scope (ret a).
Proof. intros self. cbn. auto. Qed.

Lemma keeps_scope_bind {A B} (m : M A) (k : A -> M B) :
  keeps_scope m -> (forall a, keeps_scope (k a)) -> keeps_scope (bind m k).
Proof.
  intros Hm Hk self. unfold bind. specialize (Hm self).
  destruct (m self) as [[a|e] self1]; cbn [snd] in Hm |- *; [|exact Hm].
  specialize (Hk a self1). destruct Hk as [P C], Hm as [P' C'].
  split; congruence.
Qed.

Lemma keeps_scope_attempt {A} (m : M A) :
  keeps_scope m -> keeps_scope (attempt m).
Proof.
  intros Hm self. unfold attempt. specialize (Hm self).
  now destruct (m self).
Qed.

Lemma keeps_scope_add_element x flag : keeps_scope (_add_element x flag).
Proof.
  intros self. unfold _add_element.
  destruct (existsb (is_ x) (DynamicView.element_views self)); cbn; auto.
Qed.

Lemma keeps_scope_add_call c :
  keeps_scope (add_call get_efferent_relationships
                 get_afferent_relationships
                 check_parent_and_children_not_in_view c).
Proof.
  intros self. unfold add_call.
  destruct (add_cases get_efferent_relationships get_afferent_relationships
              check_parent_and_children_not_in_view
              (Call.source c) (Call.destination c) (Call.description c)
              (Call.technology c) self)
    as [(e & _ & E) | [(e & _ & _ & E)
                      | (_ & _ & [[_ E] | (rel & resp & _ & E)])]];
    cbv zeta in E; rewrite E; cbn [snd]; auto.
  unfold added. cbn.
  destruct (keeps_scope_add_element (Call.source c) false self) as [E1 I1].
  destruct (keeps_scope_add_element (Call.destination c) false
              (snd (_add_element (Call.source c) false self))) as [E2 I2].
  split; congruence.
Qed.

Lemma keeps_scope_parallel_sequence {A} continue_numbering (body : M A) :
  keeps_scope body -> keeps_scope (parallel_sequence continue_numbering body).
Proof.
  intros Hb self. unfold parallel_sequence, try_finally, bind.
  cbn [start_parallel_sequence].
  specialize (Hb (set_sequence_number self
                    (SequenceNumber.start_parallel_sequence
                       (DynamicView.sequence_number self)))).
  destruct (body _) as [r self1]. cbn [snd] in Hb.
  unfold end_parallel_sequence.
  destruct (SequenceNumber.end_parallel_sequence continue_numbering
              (DynamicView.sequence_number self1)); cbn; exact Hb.
Qed.

Lemma keeps_scope_run l :
  Forall (fun s => keeps_scope (exec_ s)) l -> keeps_scope (run_ l).
Proof.
  induction 1 as [|s l Hs _ IH]; cbn [run].
  - apply keeps_scope_ret.
  - apply keeps_scope_bind; auto.
Qed.

Lemma keeps_scope_exec : forall s, keeps_scope (exec_ s).
Proof.
  fix IH 1. intros [c|body|continue_numbering body].
  - cbn [exec]. apply keeps_scope_bind;
      [apply keeps_scope_add_call | intros; apply keeps_scope_ret].
  - rewrite exec_Try. apply keeps_scope_bind;
      [|intros; apply keeps_scope_ret].
    apply keeps_scope_attempt, keeps_scope_run.
    induction body as [|s body IHb]; constructor; [apply IH | exact IHb].
  - rewrite exec_Parallel.
    apply keeps_scope_parallel_sequence, keeps_scope_run.
    induction body as [|s body IHb]; constructor; [apply IH | exact IHb].
Qed.

(** X13.  The scope of a view is never changed by its use: after any run of
    calls of [add], [try] blocks and parallel blocks, ended normally or by
    an exception, the scope and its identifier are those of before, so that
    a scope that is none, a software system or a container stays one. *)
Theorem run_keeps_scope l self :
  DynamicView.element (snd (run_ l self)) = DynamicView.element self
  /\ DynamicView.element_id (snd (run_ l self)) = DynamicView.element_id self
  /\ (scope_is_valid self -> scope_is_valid (snd (run_ l self))).
Proof.
  destruct (keeps_scope_run l) with (self := self) as [E I].
  { apply Forall_forall. intros s _. apply keeps_scope_exec. }
  split; [exact E|]. split; [exact I|].
  unfold scope_is_valid. now rewrite E.
Qed.

End ScriptProperties.

(** * The further properties on the example model *)

(** The second relationship from [a] to [b] is found by its description and
    technology; without the description a forward match is found as well. *)
Lemma find_relationship_filters_narrow_witness :
  _find_relationship Example.get_efferent_relationships
    Example.get_afferent_relationships Example.a (Some "Sends events")
    Example.b (Some "AMQP")
  = (Some Example.a_b', false)
  /\ (exists rel',
         _find_relationship Example.get_efferent_relationships
           Example.get_afferent_relationships Example.a None
           Example.b (Some "AMQP")
         = (Some rel', false))
  /\ (exists rel',
         _find_relationship Example.get_efferent_relationships
           Example.get_afferent_relationships Example.a (Some "Sends events")
           Example.b None
         = (Some rel', false)).
Proof.
  assert (H : _find_relationship Example.get_efferent_relationships
                Example.get_afferent_relationships Example.a
                (Some "Sends events") Example.b (Some "AMQP")
              = (Some Example.a_b', false)) by (vm_compute; reflexivity).
  split; [exact H|].
  destruct (find_relationship_filters_narrow
              Example.get_efferent_relationships
              Example.get_afferent_relationships
              Example.a Example.b (Some "Sends events") (Some "AMQP")
              Example.a_b' false H)
    as [(r1 & f1 & E1 & F1) (r2 & f2 & E2 & F2)].
  rewrite (F1 eq_refl) in E1. rewrite (F2 eq_refl) in E2. eauto.
Defined.

(** [a] asks [b]; [b] can answer. *)
Lemma reply_is_resolved_witness :
  (forall r,
      In r (Example.get_efferent_relationships Example.a) ->
      same_object (Relationship.destination r) Example.b ->
      In r (Example.get_afferent_relationships Example.b)
      /\ same_object (Relationship.source r) Example.a)
  /\ _find_relationship Example.get_efferent_relationships
       Example.get_afferent_relationships Example.a None Example.b None
     = (Some Example.a_b, false)
  /\ exists rel' response,
      _find_relationship Example.get_efferent_relationships
        Example.get_afferent_relationships Example.b (Some "Sends response")
        Example.a None
      = (Some rel', response).
Proof.
  assert (Model : forall r,
             In r (Example.get_efferent_relationships Example.a) ->
             same_object (Relationship.destination r) Example.b ->
             In r (Example.get_afferent_relationships Example.b)
             /\ same_object (Relationship.source r) Example.a).
  { intros r Hin _. vm_compute in Hin.
    destruct Hin as [<-|[<-|[]]]; split; vm_compute; auto. }
  assert (H : _find_relationship Example.get_efferent_relationships
                Example.get_afferent_relationships Example.a None
                Example.b None
              = (Some Example.a_b, false)) by (vm_compute; reflexivity).
  split; [exact Model|]. split; [exact H|].
  exact (reply_is_resolved Example.get_efferent_relationships
           Example.get_afferent_relationships
           Example.a Example.b None None Example.a_b (Some "Sends response")
           Model H).
Defined.

(** The answer of [b] to [a] is accepted in the view without scope: both
    are software systems. *)
Lemma add_respects_scope_witness :
  Example.add Example.b Example.a (Some "Sends response") None Example.view
  = (Ok Example.response_view, Example.view_after_response)
  /\ respects_scope Example.check_parent_and_children_not_in_view
       Example.view Example.b
  /\ respects_scope Example.check_parent_and_children_not_in_view
       Example.view Example.a.
Proof.
  assert (H : Example.add Example.b Example.a (Some "Sends response") None
                Example.view
              = (Ok Example.response_view, Example.view_after_response))
    by (vm_compute; reflexivity).
  split; [exact H|].
  exact (add_respects_scope Example.get_efferent_relationships
           Example.get_afferent_relationships
           Example.check_parent_and_children_not_in_view
           Example.b Example.a (Some "Sends response") None
           Example.view _ _ H).
Defined.

(** The view of the container [api]: its scope is valid, and the validation
    of [a], the parent of [api], ends in one of the three ways. *)
Lemma check_assertion_holds_witness :
  scope_is_valid Example.container_view
  /\ (check_element_can_be_added Example.check_parent_and_children_not_in_view
        Example.a Example.container_view
      = (Ok tt, Example.container_view)
      \/ (exists msg,
             check_element_can_be_added
               Example.check_parent_and_children_not_in_view
               Example.a Example.container_view
             = (Raise (ValueError msg), Example.container_view))
      \/ (exists e,
             Example.check_parent_and_children_not_in_view
               Example.container_view Example.a = Some e
             /\ check_element_can_be_added
                  Example.check_parent_and_children_not_in_view
                  Example.a Example.container_view
                = (Raise e, Example.container_view))).
Proof.
  assert (H : scope_is_valid Example.container_view) by (right; reflexivity).
  split; [exact H|].
  exact (check_assertion_holds Example.check_parent_and_children_not_in_view
           Example.a Example.container_view H).
Defined.

(** * Blocks that nest a block *)


